(** * The todo slice of the Redux Toolkit tutorial

    A shallow embedding of [todoSlice.js] (the [createSlice] call with its
    [initialState] and the two case reducers [addTodo] and [removeTodo]),
    followed by the properties of the store that the specification states.

    Conventions of the embedding:
    - a reducer written against an Immer draft ([state.todos.push(todo)],
      [state.todos = ...]) is the function from the state before to the
      state after;
    - [nanoid()] is the only source of non-determinism; the string it
      returns is an explicit argument of whatever calls it;
    - JavaScript primitives are the type [value]; the only number of the
      program is the integer [1], so numbers are integers (no NaN, no
      fractions, no signed zero). *)

From Stdlib Require Import ZArith List Bool.
From stdpp Require Import base list strings.

Local Open Scope string_scope.
Local Open Scope list_scope.

(** ** Values and strict equality *)

Inductive value : Type :=
| VUndefined
| VNull
| VBool (b : bool)
| VNum (n : Z)
| VStr (s : string).

(** [a === b] on primitives: equal kinds and equal contents. *)
Definition strict_eq (a b : value) : bool :=
  match a, b with
  | VUndefined, VUndefined => true
  | VNull, VNull => true
  | VBool x, VBool y => Bool.eqb x y
  | VNum x, VNum y => Z.eqb x y
  | VStr x, VStr y => String.eqb x y
  | _, _ => false
  end.

(** [a !== b]. *)
Definition strict_neq (a b : value) : bool := negb (strict_eq a b).

(** ** The data model *)

(** [{ id: ..., text: ... }] *)
Record Todo : Type := { id : value; text : value }.

(** [{ todos: [...] }] *)
Record State : Type := { todos : list Todo }.

(** An action as [createSlice]'s action creators build it:
    [{ type: 'todo/addTodo', payload }]. *)
Record Action : Type := { type : string; payload : value }.

(** Equality of values and of records is decidable; it is what counts the
    occurrences of an identifier or of a record in a list. *)
#[global] Instance value_eq_dec : EqDecision value.
Proof. solve_decision. Defined.

#[global] Instance Todo_eq_dec : EqDecision Todo.
Proof. solve_decision. Defined.

(** [const initialState = { todos: [{ id: 1, text: 'Hello world!' }] }] *)
Definition initialState : State :=
  {| todos := [ {| id := VNum 1; text := VStr "Hello world!" |} ] |}.

(** The identifiers of a state, in list order. *)
Definition ids (state : State) : list value := map id (todos state).

(** ** The case reducers *)

(** [[
    addTodo: (state, action) => {
        const todo = { id: nanoid(), text: action.payload };
        state.todos.push(todo);
    }
    ]] *)
Definition addTodo (nanoid : string) (state : State) (action : Action) : State :=
  let todo := {| id := VStr nanoid; text := payload action |} in
  {| todos := todos state ++ [todo] |}.

(** [[
    removeTodo: (state, action) => {
        state.todos = state.todos.filter((todo) => todo.id !== action.payload);
    }
    ]] *)
Definition removeTodo (state : State) (action : Action) : State :=
  {| todos := List.filter (fun todo => strict_neq (id todo) (payload action))
                          (todos state) |}.

(** ** The slice: action creators and the generated reducer *)

Definition slice_name : string := "todo".

Definition addTodo_type : string := (slice_name ++ "/addTodo")%string.
Definition removeTodo_type : string := (slice_name ++ "/removeTodo")%string.

(** [todoSlice.actions.addTodo(text)] and [todoSlice.actions.removeTodo(id)] *)
Definition addTodoAction (text : value) : Action :=
  {| type := addTodo_type; payload := text |}.
Definition removeTodoAction (target : value) : Action :=
  {| type := removeTodo_type; payload := target |}.

(** [todoSlice.reducer]: the case reducer registered under the action's
    type, and the state as it is for any other action.  [nanoid] is what
    [nanoid()] returns if this call draws an identifier. *)
Definition reducer (nanoid : string) (state : State) (action : Action) : State :=
  if String.eqb (type action) addTodo_type then addTodo nanoid state action
  else if String.eqb (type action) removeTodo_type then removeTodo state action
  else state.

(** A run of the store: the dispatched actions in order, each with the
    identifier [nanoid()] has in stock for it. *)
Definition Trace : Type := list (string * Action).

Fixpoint run (trace : Trace) (state : State) : State :=
  match trace with
  | [] => state
  | (nanoid, action) :: rest => run rest (reducer nanoid state action)
  end.

(** Whether the identifier an action draws is already in the state. Only
    [addTodo] draws one. *)
Definition draws_fresh (nanoid : string) (state : State) (action : Action) : bool :=
  negb (String.eqb (type action) addTodo_type)
  || negb (existsb (strict_eq (VStr nanoid)) (ids state)).

(** Every identifier drawn along the run is fresh for the state it is
    added to. *)
Fixpoint fresh_draws (trace : Trace) (state : State) : bool :=
  match trace with
  | [] => true
  | (nanoid, action) :: rest =>
      draws_fresh nanoid state action
      && fresh_draws rest (reducer nanoid state action)
  end.

(** ** The reducers on untyped objects

    The same two reducers once more, this time as JavaScript runs them: on
    values that carry no type, where reading a property of [undefined] or
    calling [push] or [filter] on something that is not an array throws a
    [TypeError].  The typed reducers above are justified against these. *)

Module Js.

#[local] Unset Elimination Schemes.
Inductive jsval : Type :=
| JPrim (v : value)
| JArray (elems : list jsval)
| JObject (props : list (string * jsval)).
#[local] Set Elimination Schemes.

Inductive outcome (A : Type) : Type :=
| Returns (a : A)
| Throws (error : string).
Arguments Returns {A} a.
Arguments Throws {A} error.

Definition bind {A B : Type} (m : outcome A) (k : A -> outcome B) : outcome B :=
  match m with
  | Returns a => k a
  | Throws e => Throws e
  end.

Notation "'let*' x ':=' m 'in' k" := (bind m (fun x => k))
  (at level 10, x name, m at level 100, k at level 200).

Definition TypeError : string := "TypeError".

Fixpoint own (key : string) (props : list (string * jsval)) : option jsval :=
  match props with
  | [] => None
  | (k, v) :: rest => if String.eqb k key then Some v else own key rest
  end.

Fixpoint store (key : string) (v : jsval) (props : list (string * jsval))
  : list (string * jsval) :=
  match props with
  | [] => [(key, v)]
  | (k, w) :: rest =>
      if String.eqb k key then (k, v) :: rest else (k, w) :: store key v rest
  end.

(** [o.key] for a key that no prototype defines ([todos], [id]): the own
    property of an object, [undefined] where there is none, and a
    [TypeError] on [undefined] and [null]. *)
Definition get (o : jsval) (key : string) : outcome jsval :=
  match o with
  | JObject props =>
      Returns (match own key props with Some v => v | None => JPrim VUndefined end)
  | JPrim VUndefined | JPrim VNull => Throws TypeError
  | JPrim _ | JArray _ => Returns (JPrim VUndefined)
  end.

(** [o.key = v] in strict mode (a module is strict code).  Only plain
    objects carry properties in this model: the assignment throws on
    everything else. *)
Definition set (o : jsval) (key : string) (v : jsval) : outcome jsval :=
  match o with
  | JObject props => Returns (JObject (store key v props))
  | _ => Throws TypeError
  end.

(** [a.push(x)], as the array after the call. *)
Definition push (a : jsval) (x : jsval) : outcome jsval :=
  match a with
  | JArray elems => Returns (JArray (elems ++ [x]))
  | _ => Throws TypeError
  end.

(** The loop of [Array.prototype.filter]; the callback may throw. *)
Fixpoint filter_elems (keep : jsval -> outcome bool) (elems : list jsval)
  : outcome (list jsval) :=
  match elems with
  | [] => Returns []
  | x :: rest =>
      let* b := keep x in
      let* kept := filter_elems keep rest in
      Returns (if b then x :: kept else kept)
  end.

(** [a.filter(keep)] *)
Definition filter (a : jsval) (keep : jsval -> outcome bool) : outcome jsval :=
  match a with
  | JArray elems => let* kept := filter_elems keep elems in Returns (JArray kept)
  | _ => Throws TypeError
  end.

(** [v !== p] for a primitive [p]: an object or an array is never
    strictly equal to a primitive. *)
Definition strict_neq (v : jsval) (p : value) : bool :=
  match v with
  | JPrim a => negb (strict_eq a p)
  | _ => true
  end.

(** [{ id: nanoid(), text: action.payload }] *)
Definition new_todo (nanoid : string) (action : Action) : jsval :=
  JObject [("id", JPrim (VStr nanoid)); ("text", JPrim (payload action))].

(** [addTodo] again.  [push] changes the array that [state.todos] refers
    to; here the changed array is put back under [todos]. *)
Definition addTodo (nanoid : string) (state : jsval) (action : Action)
  : outcome jsval :=
  let todo := new_todo nanoid action in
  let* arr := get state "todos" in
  let* arr' := push arr todo in
  set state "todos" arr'.

(** [removeTodo] again: [state.todos = state.todos.filter(...)] with the
    callback [(todo) => todo.id !== action.payload]. *)
Definition removeTodo (state : jsval) (action : Action) : outcome jsval :=
  let* arr := get state "todos" in
  let* arr' := filter arr (fun todo =>
                             let* i := get todo "id" in
                             Returns (strict_neq i (payload action))) in
  set state "todos" arr'.

(** The typed records as the objects they stand for. *)
Definition of_todo (t : Todo) : jsval :=
  JObject [("id", JPrim (id t)); ("text", JPrim (text t))].

Definition of_state (s : State) : jsval :=
  JObject [("todos", JArray (map of_todo (todos s)))].

End Js.

(** ** The store ([store.js])

    [[
    export const store = configureStore({
        reducer: { todo: todoReducer }
    });
    ]]
    The state of the store keeps the slice's state under the key [todo];
    it starts from the slice's [initialState], and a dispatched action goes
    through the slice's reducer. *)

Module Store.

Record RootState : Type := { todo : State }.

Definition initial : RootState := {| todo := initialState |}.

Definition dispatch (nanoid : string) (state : RootState) (action : Action)
  : RootState :=
  {| todo := reducer nanoid (todo state) action |}.

End Store.

(** ** The component ([TodoList.jsx]) *)

Module TodoList.

(** [useSelector((state) => state.todo.todos)] *)
Definition selectTodos (state : Store.RootState) : list Todo :=
  todos (Store.todo state).

(** What [if (v)] takes for true. *)
Definition truthy (v : value) : bool :=
  match v with
  | VUndefined | VNull => false
  | VBool b => b
  | VNum n => negb (Z.eqb n 0)
  | VStr s => negb (String.eqb s "")
  end.

(** [prompt(...)] returns the string that was typed, or [null] when the
    dialog is cancelled. *)
Definition prompt (answer : option string) : value :=
  match answer with
  | Some s => VStr s
  | None => VNull
  end.

(** [[
    const handleAddTodo = () => {
        const text = prompt('Enter a new todo:');
        if (text) {
            dispatch(addTodo(text));
        }
    };
    ]]
    as the action it dispatches, if any. *)
Definition handleAddTodo (answer : option string) : option Action :=
  let text := prompt answer in
  if truthy text then Some (addTodoAction text) else None.

(** One [<li>] of the list: its key, the text it shows, and the action its
    Remove button dispatches. *)
Record Row : Type := { key : value; label : value; onRemove : Action }.

(** [[
    todos.map((todo) => (
        <li key={todo.id}>
            {todo.text}
            <button onClick={() => dispatch(removeTodo(todo.id))}>Remove</button>
        </li>
    ))
    ]] *)
Definition rows (todos : list Todo) : list Row :=
  map (fun todo => {| key := id todo;
                      label := text todo;
                      onRemove := removeTodoAction (id todo) |})
      todos.

(** What the user does: a click on Add Todo, with the answer given to the
    prompt, or a click on the Remove button of the row at a position. *)
Inductive Event : Type :=
| ClickAdd (answer : option string)
| ClickRemove (row : nat).

(** The action an event dispatches in a state.  A row that is not on the
    screen has no button to click. *)
Definition dispatched (state : Store.RootState) (event : Event) : option Action :=
  match event with
  | ClickAdd answer => handleAddTodo answer
  | ClickRemove k => onRemove <$> rows (selectTodos state) !! k
  end.

Definition step (nanoid : string) (state : Store.RootState) (event : Event)
  : Store.RootState :=
  match dispatched state event with
  | Some action => Store.dispatch nanoid state action
  | None => state
  end.

(** A session: the events in order, each with the identifier [nanoid()]
    has in stock for it. *)
Fixpoint play (session : list (string * Event)) (state : Store.RootState)
  : Store.RootState :=
  match session with
  | [] => state
  | (nanoid, event) :: rest => play rest (step nanoid state event)
  end.

(** The actions a session dispatches, as a run of the slice. *)
Fixpoint actions (session : list (string * Event)) (state : Store.RootState)
  : Trace :=
  match session with
  | [] => []
  | (nanoid, event) :: rest =>
      match dispatched state event with
      | Some action =>
          (nanoid, action) :: actions rest (Store.dispatch nanoid state action)
      | None => actions rest state
      end
  end.

End TodoList.

(** A text as the component lets it through: a string that is not empty. *)
Definition nonempty_text (todo : Todo) : bool :=
  match text todo with
  | VStr s => negb (String.eqb s "")
  | _ => false
  end.

Definition is_string (v : value) : bool :=
  match v with
  | VStr _ => true
  | _ => false
  end.

(** The identifiers of a list are strings, but for the seeded number [1]
    that may come first. *)
Definition seeded_then_strings (l : list value) : Prop :=
  Forall (fun i => is_string i = true) l
  \/ exists rest, l = VNum 1 :: rest /\ Forall (fun i => is_string i = true) rest.

(** ** Strict equality decides equality of primitives *)

Lemma strict_eq_true (a b : value) : strict_eq a b = true <-> a = b.
Proof.
  destruct a as [| |x|x|x], b as [| |y|y|y]; simpl;
    try (split; [discriminate | congruence]); try tauto.
  - rewrite Bool.eqb_true_iff. split; congruence.
  - rewrite Z.eqb_eq. split; congruence.
  - rewrite String.eqb_eq. split; congruence.
Qed.

Lemma strict_eq_refl (a : value) : strict_eq a a = true.
Proof. by apply strict_eq_true. Qed.

Lemma strict_neq_true (a b : value) : strict_neq a b = true <-> a <> b.
Proof.
  unfold strict_neq. rewrite negb_true_iff, <- not_true_iff_false.
  by rewrite strict_eq_true.
Qed.

Lemma strict_neq_false (a b : value) : strict_neq a b = false <-> a = b.
Proof.
  unfold strict_neq. rewrite negb_false_iff. apply strict_eq_true.
Qed.

(** ** Lists: what [push] and [filter] do *)

Section ListFacts.
Context {A : Type}.
Implicit Types (keep : A -> bool) (l : list A).

Lemma filter_sublist keep l : sublist (List.filter keep l) l.
Proof.
  induction l as [|x l IH]; simpl.
  - constructor.
  - destruct (keep x); by constructor.
Qed.

Lemma filter_all keep l :
  Forall (fun x => keep x = true) l -> List.filter keep l = l.
Proof.
  induction 1 as [|x l Hx _ IH]; simpl; [done|].
  by rewrite Hx, IH.
Qed.

Lemma filter_Forall keep l : Forall (fun x => keep x = true) (List.filter keep l).
Proof.
  induction l as [|x l IH]; simpl; [constructor|].
  destruct (keep x) eqn:E; [by constructor | done].
Qed.

Lemma filter_twice keep l :
  List.filter keep (List.filter keep l) = List.filter keep l.
Proof. apply filter_all, filter_Forall. Qed.

Lemma filter_snoc keep l x :
  List.filter keep (l ++ [x]) =
  List.filter keep l ++ (if keep x then [x] else []).
Proof.
  induction l as [|y l IH]; simpl; [done|].
  rewrite IH. by destruct (keep y).
Qed.

Lemma filter_map_comm {B : Type} (f : A -> B) (p : B -> bool) l :
  map f (List.filter (fun x => p (f x)) l) = List.filter p (map f l).
Proof.
  induction l as [|x l IH]; simpl; [done|].
  destruct (p (f x)); simpl; by rewrite IH.
Qed.

Lemma count_occ_filter `{EqDecision A} keep l x :
  count_occ (decide_rel (=)) (List.filter keep l) x =
  if keep x then count_occ (decide_rel (=)) l x else 0.
Proof.
  induction l as [|y l IH]; simpl.
  - by destruct (keep x).
  - destruct (keep y) eqn:Ey; simpl.
    + destruct (decide_rel (=) y x) as [->|]; rewrite IH; [|done].
      by rewrite Ey.
    + rewrite IH. destruct (decide_rel (=) y x) as [->|]; [|done].
      by rewrite Ey.
Qed.
End ListFacts.

(** Removing the identifier [p] from a list of identifiers. *)

Lemma filter_absent (p : value) (l : list value) :
  p ∉ l -> List.filter (fun i => strict_neq i p) l = l.
Proof.
  intros Hp. apply filter_all, Forall_forall. intros i Hi.
  apply strict_neq_true. intros ->. done.
Qed.

Lemma length_filter_count (p : value) (l : list value) :
  length (List.filter (fun i => strict_neq i p) l) + count_occ (decide_rel (=)) l p
  = length l.
Proof.
  induction l as [|i l IH]; simpl; [done|].
  destruct (decide_rel (=) i p) as [->|Hne].
  - replace (strict_neq p p) with false
      by (symmetry; by apply strict_neq_false).
    lia.
  - replace (strict_neq i p) with true
      by (symmetry; by apply strict_neq_true).
    simpl. lia.
Qed.

Lemma count_occ_NoDup_present (p : value) (l : list value) :
  NoDup l -> p ∈ l -> count_occ (decide_rel (=)) l p = 1.
Proof.
  intros Hnd Hin. apply NoDup_ListNoDup in Hnd. apply list_elem_of_In in Hin.
  by apply NoDup_count_occ'.
Qed.

(** ** What the reducers do to the list and to its identifiers *)

Lemma todos_addTodo nid state action :
  todos (addTodo nid state action)
  = todos state ++ [ {| id := VStr nid; text := payload action |} ].
Proof. reflexivity. Qed.

Lemma ids_addTodo nid state action :
  ids (addTodo nid state action) = ids state ++ [VStr nid].
Proof. unfold ids. simpl. by rewrite map_app. Qed.

Lemma ids_removeTodo state action :
  ids (removeTodo state action)
  = List.filter (fun i => strict_neq i (payload action)) (ids state).
Proof.
  unfold ids. simpl.
  apply (filter_map_comm id (fun i => strict_neq i (payload action))).
Qed.

Lemma State_eq (s1 s2 : State) : todos s1 = todos s2 -> s1 = s2.
Proof. destruct s1, s2; simpl; congruence. Qed.

Lemma existsb_strict_eq (p : value) (l : list value) :
  existsb (strict_eq p) l = false <-> p ∉ l.
Proof.
  rewrite <- not_true_iff_false, existsb_exists. split.
  - intros H Hin. apply H. exists p. split.
    + by apply list_elem_of_In.
    + apply strict_eq_refl.
  - intros H (x & Hx & E). apply strict_eq_true in E as <-.
    by apply list_elem_of_In in Hx.
Qed.

(** ** The store's operations *)

(** C1. For every state, every identifier [nanoid()] returns and every
    payload, [addTodo] appends exactly one record at the end of [todos]; the
    text of that record is the payload, and the list is longer by exactly
    one. *)
Theorem addTodo_appends_one (nid : string) (state : State) (action : Action) :
  todos (addTodo nid state action)
  = todos state ++ [ {| id := VStr nid; text := payload action |} ]
  /\ text <$> last (todos (addTodo nid state action)) = Some (payload action)
  /\ length (todos (addTodo nid state action)) = S (length (todos state)).
Proof.
  rewrite todos_addTodo. split; [done|]. split.
  - by rewrite last_snoc.
  - rewrite length_app. simpl. lia.
Qed.

(** C5. [addTodo] does not look at its payload: with the empty string it
    appends the record whose text is the empty string, as with any other
    text, whether called directly or through the slice's reducer. *)
Theorem addTodo_empty_text (nid : string) (state : State) :
  todos (addTodo nid state (addTodoAction (VStr "")))
  = todos state ++ [ {| id := VStr nid; text := VStr "" |} ]
  /\ reducer nid state (addTodoAction (VStr ""))
     = addTodo nid state (addTodoAction (VStr ""))
  /\ length (todos (reducer nid state (addTodoAction (VStr ""))))
     = S (length (todos state)).
Proof.
  split; [reflexivity|]. split; [reflexivity|].
  change (reducer nid state (addTodoAction (VStr "")))
    with (addTodo nid state (addTodoAction (VStr ""))).
  rewrite todos_addTodo, length_app. simpl. lia.
Qed.

(** C7. The run of the specification: from the initial state, dispatching
    [addTodo("Buy milk")] gives the seeded record followed by the new one
    under the identifier [id2] that [nanoid()] returned, and dispatching
    [removeTodo(1)] after it leaves the new record alone. *)
Theorem example_run (id2 unused : string) :
  let s1 := reducer id2 initialState (addTodoAction (VStr "Buy milk")) in
  let s2 := reducer unused s1 (removeTodoAction (VNum 1)) in
  todos initialState = [ {| id := VNum 1; text := VStr "Hello world!" |} ]
  /\ todos s1 = [ {| id := VNum 1; text := VStr "Hello world!" |};
                  {| id := VStr id2; text := VStr "Buy milk" |} ]
  /\ todos s2 = [ {| id := VStr id2; text := VStr "Buy milk" |} ]
  /\ run [ (id2, addTodoAction (VStr "Buy milk"));
           (unused, removeTodoAction (VNum 1)) ] initialState = s2.
Proof. repeat split. Qed.

(** C8. [removeTodo] is idempotent: a second call with the same payload
    changes nothing. *)
Theorem removeTodo_idempotent (state : State) (action : Action) :
  todos (removeTodo (removeTodo state action) action)
  = todos (removeTodo state action)
  /\ removeTodo (removeTodo state action) action = removeTodo state action.
Proof.
  assert (todos (removeTodo (removeTodo state action) action)
          = todos (removeTodo state action)) as H
    by apply filter_twice.
  split; [exact H | by apply State_eq].
Qed.

(** C9. In a state where the identifier [nanoid()] returns does not occur,
    [addTodo] followed by [removeTodo] of that identifier gives back the
    list the state had. *)
Theorem add_then_remove (nid : string) (state : State) (add remove : Action) :
  VStr nid ∉ ids state ->
  payload remove = VStr nid ->
  todos (removeTodo (addTodo nid state add) remove) = todos state.
Proof.
  intros Hfresh Hp. simpl. rewrite Hp, filter_snoc. simpl.
  replace (strict_neq (VStr nid) (VStr nid)) with false
    by (symmetry; by apply strict_neq_false).
  rewrite app_nil_r. apply filter_all, Forall_forall. intros t Ht.
  apply strict_neq_true. intros E. apply Hfresh.
  unfold ids. rewrite <- E. apply list_elem_of_In, in_map.
  by apply list_elem_of_In.
Qed.

Lemma add_then_remove_witness :
  (VStr "V1StGXR8_Z5jdHi6B-myT" ∉ ids initialState)
  /\ todos (removeTodo
              (addTodo "V1StGXR8_Z5jdHi6B-myT" initialState
                       (addTodoAction (VStr "Buy milk")))
              (removeTodoAction (VStr "V1StGXR8_Z5jdHi6B-myT")))
     = todos initialState.
Proof.
  assert (VStr "V1StGXR8_Z5jdHi6B-myT" ∉ ids initialState) as Hfresh
    by (apply existsb_strict_eq; vm_compute; reflexivity).
  split; [exact Hfresh|].
  apply (add_then_remove "V1StGXR8_Z5jdHi6B-myT" initialState
           (addTodoAction (VStr "Buy milk"))
           (removeTodoAction (VStr "V1StGXR8_Z5jdHi6B-myT")) Hfresh).
  reflexivity.
Defined.

Lemma length_todos_ids (state : State) : length (todos state) = length (ids state).
Proof. unfold ids. by rewrite length_map. Qed.

(** [removeTodo] drops as many records as carry the payload as identifier. *)
Lemma removeTodo_length (state : State) (action : Action) :
  length (todos (removeTodo state action))
  + count_occ (decide_rel (=)) (ids state) (payload action)
  = length (todos state).
Proof.
  rewrite !length_todos_ids, ids_removeTodo. apply length_filter_count.
Qed.

(** C2. In a state whose identifiers are pairwise distinct, [removeTodo]
    makes the list shorter by exactly one when a record carries the payload
    as its identifier; when no record does, the list stays as it is (with or
    without distinct identifiers). *)
Theorem removeTodo_size (state : State) (action : Action) :
  (NoDup (ids state) ->
   payload action ∈ ids state ->
   length (todos (removeTodo state action)) + 1 = length (todos state))
  /\ (payload action ∉ ids state ->
      todos (removeTodo state action) = todos state
      /\ removeTodo state action = state).
Proof.
  split.
  - intros Hnd Hin. rewrite <- (removeTodo_length state action).
    by rewrite count_occ_NoDup_present.
  - intros Hout.
    assert (todos (removeTodo state action) = todos state) as H.
    { simpl. apply filter_all, Forall_forall. intros t Ht.
      apply strict_neq_true. intros E. apply Hout. rewrite <- E.
      unfold ids. apply list_elem_of_In, in_map. by apply list_elem_of_In. }
    split; [exact H | by apply State_eq].
Qed.

Lemma removeTodo_size_witness :
  length (todos (removeTodo initialState (removeTodoAction (VNum 1)))) + 1
  = length (todos initialState)
  /\ todos (removeTodo initialState (removeTodoAction (VNum 2)))
     = todos initialState.
Proof.
  split.
  - apply (proj1 (removeTodo_size initialState (removeTodoAction (VNum 1)))).
    + simpl. apply NoDup_singleton.
    + apply list_elem_of_In. simpl. left. reflexivity.
  - apply (proj2 (removeTodo_size initialState (removeTodoAction (VNum 2)))).
    apply existsb_strict_eq. vm_compute. reflexivity.
Defined.

(** ** Identifiers stay distinct *)

Lemma NoDup_addTodo nid state action :
  NoDup (ids state) -> VStr nid ∉ ids state ->
  NoDup (ids (addTodo nid state action)).
Proof.
  intros Hnd Hfresh. rewrite ids_addTodo. apply NoDup_app.
  split; [done|]. split.
  - intros x Hx Hx'. apply list_elem_of_singleton in Hx' as ->. done.
  - apply NoDup_singleton.
Qed.

Lemma NoDup_removeTodo state action :
  NoDup (ids state) -> NoDup (ids (removeTodo state action)).
Proof.
  intros Hnd. rewrite ids_removeTodo.
  eapply sublist_NoDup; [done | apply filter_sublist].
Qed.

Lemma NoDup_reducer nid state action :
  NoDup (ids state) -> draws_fresh nid state action = true ->
  NoDup (ids (reducer nid state action)).
Proof.
  unfold reducer, draws_fresh. intros Hnd Hfresh.
  destruct (String.eqb (type action) addTodo_type); simpl in Hfresh.
  - apply NoDup_addTodo; [done|].
    apply existsb_strict_eq. by apply negb_true_iff.
  - destruct (String.eqb (type action) removeTodo_type); [|done].
    by apply NoDup_removeTodo.
Qed.

Lemma NoDup_run (trace : Trace) : forall state : State,
  NoDup (ids state) -> fresh_draws trace state = true ->
  NoDup (ids (run trace state)).
Proof.
  induction trace as [|[nid action] rest IH]; intros state Hnd Hfresh; simpl.
  - done.
  - simpl in Hfresh. apply andb_true_iff in Hfresh as [Hdraw Hrest].
    apply IH; [|done]. by apply NoDup_reducer.
Qed.

Lemma NoDup_initialState : NoDup (ids initialState).
Proof. apply NoDup_singleton. Qed.

(** C3. Starting from the initial state, after any sequence of dispatched
    actions in which every identifier that [nanoid()] hands to [addTodo] is
    absent from the state it is added to, the identifiers of the records
    are pairwise distinct. *)
Theorem ids_unique (trace : Trace) :
  fresh_draws trace initialState = true ->
  NoDup (ids (run trace initialState)).
Proof. apply NoDup_run, NoDup_initialState. Qed.

Lemma ids_unique_witness :
  NoDup (ids (run [ ("a", addTodoAction (VStr "Buy milk"));
                    ("b", addTodoAction (VStr ""));
                    ("c", removeTodoAction (VNum 1));
                    ("a", removeTodoAction (VStr "a"));
                    ("a", addTodoAction (VStr "Buy milk")) ] initialState)).
Proof. apply ids_unique. vm_compute. reflexivity. Defined.

(** The hypothesis on [nanoid()] is what carries the invariant: a repeated
    identifier is stored a second time. *)
Lemma repeated_draw_duplicates :
  ~ NoDup (ids (run [ ("a", addTodoAction (VStr "x"));
                      ("a", addTodoAction (VStr "y")) ] initialState)).
Proof.
  change (~ NoDup [VNum 1; VStr "a"; VStr "a"]).
  rewrite !NoDup_cons. intros (_ & Ha & _). apply Ha. left.
Qed.

(** ** The reducers do not throw *)

(** On an array of todo objects the callback of [removeTodo] reads an [id]
    that is there, so the loop of [filter] runs to its end. *)
Lemma filter_elems_of_todos (p : value) (l : list Todo) :
  Js.filter_elems
    (fun todo => Js.bind (Js.get todo "id")
                         (fun i => Js.Returns (Js.strict_neq i p)))
    (map Js.of_todo l)
  = Js.Returns (map Js.of_todo (List.filter (fun todo => strict_neq (id todo) p) l)).
Proof.
  induction l as [|t l IH]; simpl; [done|].
  rewrite IH. simpl. unfold strict_neq.
  by destruct (negb (strict_eq (id t) p)).
Qed.

(** The untyped reducers do have a failure branch: on a state that has no
    [todos] array they throw. *)
Lemma addTodo_throws_without_todos (nid : string) (action : Action) :
  Js.addTodo nid (Js.JObject []) action = Js.Throws Js.TypeError
  /\ Js.removeTodo (Js.JObject []) action = Js.Throws Js.TypeError
  /\ Js.removeTodo
       (Js.JObject [("todos", Js.JArray [Js.JPrim VNull])]) action
     = Js.Throws Js.TypeError.
Proof. repeat split. Qed.

(** C4. Both reducers are total and never fail: for every state and every
    action, run on the object the state stands for, [addTodo] and
    [removeTodo] return (no [TypeError] from reading [state.todos], from
    [push], from [filter] or from its callback), and what they return is
    the object of the successor state. *)
Theorem reducers_total (nid : string) (state : State) (action : Action) :
  Js.addTodo nid (Js.of_state state) action
  = Js.Returns (Js.of_state (addTodo nid state action))
  /\ Js.removeTodo (Js.of_state state) action
     = Js.Returns (Js.of_state (removeTodo state action)).
Proof.
  split.
  - unfold Js.addTodo, Js.of_state. simpl. by rewrite map_app.
  - unfold Js.removeTodo, Js.of_state. simpl.
    by rewrite filter_elems_of_todos.
Qed.

(** ** Frame: the records the reducers leave alone *)

(** C6. [addTodo] leaves the records that were there where they were: the
    old list is the new list without its last element.  [removeTodo] keeps
    the order of the list (its result is a sublist), and keeps every
    occurrence of every record whose identifier is not the payload. *)
Theorem reducers_frame (nid : string) (state : State) (action : Action) :
  take (length (todos state)) (todos (addTodo nid state action)) = todos state
  /\ sublist (todos (removeTodo state action)) (todos state)
  /\ forall t : Todo,
       count_occ (decide_rel (=)) (todos (removeTodo state action)) t
       = if strict_neq (id t) (payload action)
         then count_occ (decide_rel (=)) (todos state) t
         else 0.
Proof.
  split; [|split].
  - rewrite todos_addTodo. apply take_app_length.
  - apply filter_sublist.
  - intros t. simpl.
    apply (count_occ_filter (fun todo => strict_neq (id todo) (payload action))).
Qed.

(** ** Which records [removeTodo] removes *)

(** Two records under one identifier go with one call. *)
Example removeTodo_duplicates :
  todos (removeTodo
           {| todos := [ {| id := VNum 7; text := VStr "a" |};
                         {| id := VNum 8; text := VStr "b" |};
                         {| id := VNum 7; text := VStr "c" |} ] |}
           (removeTodoAction (VNum 7)))
  = [ {| id := VNum 8; text := VStr "b" |} ].
Proof. reflexivity. Qed.

(** C10. [removeTodo] removes every record whose identifier is strictly
    equal to the payload: none is left, and the list is shorter by the
    number of records that carried it.  A number and a string are never
    strictly equal, so the payload ["1"] leaves the seeded record, whose
    identifier is the number [1], in place. *)
Theorem removeTodo_removes_all (state : State) (action : Action) :
  Forall (fun todo => id todo <> payload action) (todos (removeTodo state action))
  /\ length (todos (removeTodo state action))
     + count_occ (decide_rel (=)) (ids state) (payload action)
     = length (todos state)
  /\ (forall (n : Z) (s : string),
        strict_eq (VNum n) (VStr s) = false /\ strict_eq (VStr s) (VNum n) = false)
  /\ removeTodo initialState (removeTodoAction (VStr "1")) = initialState.
Proof.
  split; [|split; [|split]].
  - eapply Forall_impl; [apply filter_Forall|].
    intros t Ht. by apply strict_neq_true.
  - apply removeTodo_length.
  - done.
  - reflexivity.
Qed.

(** ** How the reducers compose *)

Lemma filter_swap {A : Type} (f g : A -> bool) (l : list A) :
  List.filter f (List.filter g l) = List.filter g (List.filter f l).
Proof.
  induction l as [|x l IH]; simpl; [done|].
  destruct (f x) eqn:Ef, (g x) eqn:Eg; simpl; rewrite ?Ef, ?Eg, IH; done.
Qed.

Lemma filter_keeps_Forall {A : Type} (P : A -> Prop) (f : A -> bool) (l : list A) :
  Forall P l -> Forall P (List.filter f l).
Proof.
  induction 1 as [|x l Hx _ IH]; simpl; [constructor|].
  destruct (f x); [by constructor | done].
Qed.

(** X1. Two removals commute: the order in which two records are removed
    does not matter for the state that results. *)
Theorem removeTodo_comm (state : State) (a b : Action) :
  removeTodo (removeTodo state a) b = removeTodo (removeTodo state b) a.
Proof. apply State_eq. simpl. apply filter_swap. Qed.

(** X2. A removal and an addition commute as long as the removal is not
    aimed at the identifier the addition draws. *)
Theorem removeTodo_addTodo_comm
    (nid : string) (state : State) (add remove : Action) :
  payload remove <> VStr nid ->
  removeTodo (addTodo nid state add) remove
  = addTodo nid (removeTodo state remove) add.
Proof.
  intros Hne. apply State_eq. simpl. rewrite filter_snoc. simpl.
  replace (strict_neq (VStr nid) (payload remove)) with true; [done|].
  symmetry. apply strict_neq_true. congruence.
Qed.

Lemma removeTodo_addTodo_comm_witness :
  removeTodo (addTodo "a" initialState (addTodoAction (VStr "Buy milk")))
             (removeTodoAction (VNum 1))
  = addTodo "a" (removeTodo initialState (removeTodoAction (VNum 1)))
            (addTodoAction (VStr "Buy milk")).
Proof.
  apply (removeTodo_addTodo_comm "a" initialState
           (addTodoAction (VStr "Buy milk")) (removeTodoAction (VNum 1))).
  simpl. discriminate.
Defined.

(** ** The identifiers a run can produce *)

Lemma seeded_then_strings_snoc l nid :
  seeded_then_strings l -> seeded_then_strings (l ++ [VStr nid]).
Proof.
  intros [H | (rest & -> & H)].
  - left. apply Forall_app. split; [done|]. by constructor.
  - right. exists (rest ++ [VStr nid]). split; [done|].
    apply Forall_app. split; [done|]. by constructor.
Qed.

Lemma seeded_then_strings_filter l (f : value -> bool) :
  seeded_then_strings l -> seeded_then_strings (List.filter f l).
Proof.
  intros [H | (rest & -> & H)].
  - left. by apply filter_keeps_Forall.
  - simpl. destruct (f (VNum 1)).
    + right. eexists. split; [done|]. by apply filter_keeps_Forall.
    + left. by apply filter_keeps_Forall.
Qed.

Lemma seeded_then_strings_reducer nid state action :
  seeded_then_strings (ids state) ->
  seeded_then_strings (ids (reducer nid state action)).
Proof.
  intros H. unfold reducer.
  destruct (String.eqb (type action) addTodo_type).
  - rewrite ids_addTodo. by apply seeded_then_strings_snoc.
  - destruct (String.eqb (type action) removeTodo_type); [|done].
    rewrite ids_removeTodo. by apply seeded_then_strings_filter.
Qed.

Lemma seeded_then_strings_run (trace : Trace) : forall state : State,
  seeded_then_strings (ids state) ->
  seeded_then_strings (ids (run trace state)).
Proof.
  induction trace as [|[nid action] rest IH]; intros state H; simpl; [done|].
  by apply IH, seeded_then_strings_reducer.
Qed.

Lemma count_occ_strings (l : list value) (n : Z) :
  Forall (fun i => is_string i = true) l ->
  count_occ (decide_rel (=)) l (VNum n) = 0.
Proof.
  induction 1 as [|i l Hi _ IH]; simpl; [done|].
  destruct (decide_rel (=) i (VNum n)) as [->|]; [discriminate Hi | done].
Qed.

(** X3. Whatever [nanoid()] returns, and whatever is dispatched: after any
    run from the initial state every identifier is a string, except that
    the list may still begin with the seeded number [1].  So the number [1]
    occurs at most once, and a number is never a duplicate. *)
Theorem run_identifiers (trace : Trace) :
  seeded_then_strings (ids (run trace initialState))
  /\ count_occ (decide_rel (=)) (ids (run trace initialState)) (VNum 1) <= 1.
Proof.
  assert (seeded_then_strings (ids (run trace initialState))) as H.
  { apply seeded_then_strings_run. right. exists []. split; [done | constructor]. }
  split; [exact H|].
  destruct H as [H | (rest & -> & H)].
  - rewrite count_occ_strings by done. lia.
  - simpl. destruct (decide_rel (=) (VNum 1) (VNum 1)); [|done].
    rewrite count_occ_strings by done. lia.
Qed.

(** ** The component: what a click does to the store *)

Lemma elem_of_ids (t : Todo) (l : list Todo) : t ∈ l -> id t ∈ map id l.
Proof. intros H. apply list_elem_of_In, in_map. by apply list_elem_of_In. Qed.

Lemma reducer_addTodoAction nid state (t : value) :
  reducer nid state (addTodoAction t) = addTodo nid state (addTodoAction t).
Proof. reflexivity. Qed.

Lemma reducer_removeTodoAction nid state (p : value) :
  reducer nid state (removeTodoAction p) = removeTodo state (removeTodoAction p).
Proof. reflexivity. Qed.

(** The Remove button of a row carries the identifier of the record the row
    shows. *)
Lemma dispatched_ClickRemove (state : Store.RootState) (k : nat) :
  TodoList.dispatched state (TodoList.ClickRemove k)
  = (fun t => removeTodoAction (id t)) <$> TodoList.selectTodos state !! k.
Proof.
  unfold TodoList.dispatched, TodoList.rows.
  generalize (TodoList.selectTodos state). intros l. revert k.
  induction l as [|t l IH]; intros [|k]; simpl; [done | done | done | apply IH].
Qed.

(** In a list with distinct identifiers, filtering out the identifier of
    the record at a position deletes that position and nothing else. *)
Lemma filter_deletes_position (l : list Todo) : forall (k : nat) (t : Todo),
  NoDup (map id l) -> l !! k = Some t ->
  List.filter (fun x => strict_neq (id x) (id t)) l = delete k l.
Proof.
  induction l as [|x l IH]; intros k t Hnd Hk; [done|].
  simpl in Hnd. apply NoDup_cons in Hnd as [Hx Hnd].
  destruct k as [|k]; simpl in Hk |- *.
  - injection Hk as ->.
    replace (strict_neq (id t) (id t)) with false
      by (symmetry; by apply strict_neq_false).
    apply filter_all, Forall_forall. intros y Hy.
    apply strict_neq_true. intros E. apply Hx. rewrite <- E.
    by apply elem_of_ids.
  - assert (id x <> id t) as Hne.
    { intros E. apply Hx. rewrite E.
      by eapply elem_of_ids, list_elem_of_lookup_2. }
    replace (strict_neq (id x) (id t)) with true
      by (symmetry; by apply strict_neq_true).
    change (delete (S k) (x :: l)) with (x :: delete k l).
    f_equal. by apply IH.
Qed.

Lemma delete_absent_position {A : Type} (l : list A) :
  forall k : nat, l !! k = None -> delete k l = l.
Proof.
  induction l as [|x l IH]; intros [|k] Hk; simpl in *; try done.
  change (delete (S k) (x :: l)) with (x :: delete k l).
  f_equal. by apply IH.
Qed.

Lemma step_ClickRemove (nid : string) (state : Store.RootState) (k : nat) :
  NoDup (ids (Store.todo state)) ->
  TodoList.selectTodos (TodoList.step nid state (TodoList.ClickRemove k))
  = delete k (TodoList.selectTodos state).
Proof.
  intros Hnd. unfold TodoList.step. rewrite dispatched_ClickRemove.
  unfold TodoList.selectTodos.
  destruct (todos (Store.todo state) !! k) as [t|] eqn:Hk; simpl.
  - by apply filter_deletes_position.
  - symmetry. by apply delete_absent_position.
Qed.

(** X4. The guard of [handleAddTodo]: a cancelled prompt and an empty
    answer dispatch nothing and leave the store as it is; any other answer
    adds exactly one record, at the end, with that answer as its text. *)
Theorem add_click (nid : string) (state : Store.RootState) :
  TodoList.step nid state (TodoList.ClickAdd None) = state
  /\ TodoList.step nid state (TodoList.ClickAdd (Some "")) = state
  /\ forall (c : Ascii.ascii) (rest : string),
       TodoList.selectTodos
         (TodoList.step nid state (TodoList.ClickAdd (Some (String c rest))))
       = TodoList.selectTodos state
         ++ [ {| id := VStr nid; text := VStr (String c rest) |} ].
Proof. repeat split. Qed.

(** X5. When the identifiers in the store are pairwise distinct, a click on
    the Remove button of the row at position [k] deletes the record at
    position [k] and no other; the records before and after it stay, in
    order. *)
Theorem remove_click (nid : string) (state : Store.RootState) (k : nat) :
  NoDup (ids (Store.todo state)) ->
  TodoList.selectTodos (TodoList.step nid state (TodoList.ClickRemove k))
  = delete k (TodoList.selectTodos state).
Proof. apply step_ClickRemove. Qed.

Lemma remove_click_witness :
  TodoList.selectTodos
    (TodoList.step "unused"
       (Store.dispatch "a" Store.initial (addTodoAction (VStr "Buy milk")))
       (TodoList.ClickRemove 0))
  = [ {| id := VStr "a"; text := VStr "Buy milk" |} ].
Proof.
  apply (remove_click "unused"
           (Store.dispatch "a" Store.initial (addTodoAction (VStr "Buy milk"))) 0).
  change (NoDup [VNum 1; VStr "a"]).
  apply NoDup_cons. split; [|apply NoDup_singleton].
  apply existsb_strict_eq. vm_compute. reflexivity.
Defined.

(** The distinctness is needed: with one identifier stored twice, the
    click on one row takes the other row with it. *)
Lemma remove_click_shared_identifier :
  let state := {| Store.todo :=
                    {| todos := [ {| id := VStr "a"; text := VStr "x" |};
                                  {| id := VStr "a"; text := VStr "y" |} ] |} |} in
  TodoList.selectTodos (TodoList.step "unused" state (TodoList.ClickRemove 0)) = [].
Proof. reflexivity. Qed.

(** ** The component: sessions *)

Lemma play_run (session : list (string * TodoList.Event)) :
  forall state : Store.RootState,
  Store.todo (TodoList.play session state)
  = run (TodoList.actions session state) (Store.todo state).
Proof.
  induction session as [|[nid event] rest IH]; intros state; simpl; [done|].
  unfold TodoList.step.
  destruct (TodoList.dispatched state event) as [action|]; simpl.
  - by rewrite IH.
  - apply IH.
Qed.

Lemma step_texts (nid : string) (state : Store.RootState) (event : TodoList.Event) :
  Forall (fun t => nonempty_text t = true) (TodoList.selectTodos state) ->
  Forall (fun t => nonempty_text t = true)
         (TodoList.selectTodos (TodoList.step nid state event)).
Proof.
  intros H. unfold TodoList.step. destruct event as [answer | k].
  - destruct answer as [[|c rest]|]; simpl; try done.
    unfold TodoList.selectTodos. simpl.
    apply Forall_app. split; [done|]. by constructor.
  - rewrite dispatched_ClickRemove.
    destruct (TodoList.selectTodos state !! k) as [t|]; simpl; [|done].
    unfold TodoList.selectTodos. simpl. by apply filter_keeps_Forall.
Qed.

(** X6. No session of clicks puts an empty text into the store: starting
    from the store's initial state, after any sequence of Add and Remove
    clicks, with any answers to the prompt, the text of every record is a
    string that is not empty. *)
Theorem session_texts_nonempty (session : list (string * TodoList.Event)) :
  Forall (fun t => nonempty_text t = true)
         (TodoList.selectTodos (TodoList.play session Store.initial)).
Proof.
  assert (forall state,
            Forall (fun t => nonempty_text t = true) (TodoList.selectTodos state) ->
            Forall (fun t => nonempty_text t = true)
                   (TodoList.selectTodos (TodoList.play session state))) as Hinv.
  { induction session as [|[nid event] rest IH]; intros state H; simpl; [done|].
    by apply IH, step_texts. }
  apply Hinv. by repeat constructor.
Qed.

(** X7. In a session where every identifier [nanoid()] hands out is absent
    from the store at that moment, the identifiers in the store stay
    pairwise distinct, so that every click on a Remove button deletes the
    row it belongs to and no other. *)
Theorem session_remove_click
    (session : list (string * TodoList.Event)) (nid : string) (k : nat) :
  fresh_draws (TodoList.actions session Store.initial) initialState = true ->
  NoDup (ids (Store.todo (TodoList.play session Store.initial)))
  /\ TodoList.selectTodos
       (TodoList.step nid (TodoList.play session Store.initial)
                      (TodoList.ClickRemove k))
     = delete k (TodoList.selectTodos (TodoList.play session Store.initial)).
Proof.
  intros Hfresh.
  assert (NoDup (ids (Store.todo (TodoList.play session Store.initial)))) as Hnd.
  { rewrite play_run. apply NoDup_run; [apply NoDup_initialState | done]. }
  split; [exact Hnd | by apply step_ClickRemove].
Qed.

Lemma session_remove_click_witness :
  TodoList.selectTodos
    (TodoList.step "unused"
       (TodoList.play [ ("a", TodoList.ClickAdd (Some "Buy milk"));
                        ("b", TodoList.ClickAdd None);
                        ("c", TodoList.ClickAdd (Some "Call home")) ]
                      Store.initial)
       (TodoList.ClickRemove 1))
  = [ {| id := VNum 1; text := VStr "Hello world!" |};
      {| id := VStr "c"; text := VStr "Call home" |} ].
Proof.
  apply (session_remove_click
           [ ("a", TodoList.ClickAdd (Some "Buy milk"));
             ("b", TodoList.ClickAdd None);
             ("c", TodoList.ClickAdd (Some "Call home")) ] "unused" 1).
  vm_compute. reflexivity.
Defined.

Lemma lookup_snoc_last {A : Type} (l : list A) (x : A) :
  (l ++ [x]) !! length l = Some x.
Proof. induction l as [|y l IH]; simpl; [done | exact IH]. Qed.

Lemma filter_fresh_snoc (l : list Todo) (new : Todo) :
  id new ∉ map id l ->
  List.filter (fun x => strict_neq (id x) (id new)) (l ++ [new]) = l.
Proof.
  intros Hfresh. rewrite filter_snoc.
  replace (strict_neq (id new) (id new)) with false
    by (symmetry; by apply strict_neq_false).
  rewrite app_nil_r. apply filter_all, Forall_forall. intros y Hy.
  apply strict_neq_true. intros E. apply Hfresh. rewrite <- E.
  by apply elem_of_ids.
Qed.

(** X8. Undoing an addition from the screen: when the identifier drawn for
    an Add click is not in the store, the click (with an answer that is not
    empty) followed by a click on the Remove button of the last row gives
    back the list as it was, whatever else the store holds. *)
Theorem add_click_then_remove_last
    (nid unused : string) (state : Store.RootState)
    (c : Ascii.ascii) (rest : string) :
  VStr nid ∉ ids (Store.todo state) ->
  let added :=
    TodoList.step nid state (TodoList.ClickAdd (Some (String c rest))) in
  TodoList.selectTodos
    (TodoList.step unused added
       (TodoList.ClickRemove (length (TodoList.selectTodos state))))
  = TodoList.selectTodos state.
Proof.
  intros Hfresh added. unfold TodoList.step at 1.
  rewrite dispatched_ClickRemove.
  change (TodoList.selectTodos added)
    with (TodoList.selectTodos state
          ++ [ {| id := VStr nid; text := VStr (String c rest) |} ]).
  rewrite lookup_snoc_last. simpl.
  unfold TodoList.selectTodos. simpl.
  apply (filter_fresh_snoc (todos (Store.todo state))
           {| id := VStr nid; text := VStr (String c rest) |}).
  exact Hfresh.
Qed.

Lemma add_click_then_remove_last_witness :
  TodoList.selectTodos
    (TodoList.step "unused"
       (TodoList.step "a" Store.initial (TodoList.ClickAdd (Some "Buy milk")))
       (TodoList.ClickRemove 1))
  = [ {| id := VNum 1; text := VStr "Hello world!" |} ].
Proof.
  apply (add_click_then_remove_last "a" "unused" Store.initial _ _).
  apply existsb_strict_eq. vm_compute. reflexivity.
Defined.
